(** * vectorutils.py: raw vector operations of pylnagb

    Two shallow embeddings of [src/raw/vectorutils.py] and the properties of
    its functions [validate_vector], [two_to_three], [rec], [pol] and
    [add_cartes].

    Python is dynamically typed, so the functions are modelled over a type of
    Python objects, and a call either returns a value or raises an exception.

    The first embedding takes numbers as exact reals.  It carries the
    properties in which no arithmetic takes part (validation, the shape of
    the arguments, the exceptions caught) or in which exact and binary64
    arithmetic agree.  The second, [B64], takes numbers as Python has them,
    [int] of any size and binary64 [float], with the overflow and domain
    errors of CPython; it carries the properties about computed values. *)

From Stdlib Require Import ZArith Floats.
From Stdlib Require Import Reals Lra Lia List String Ascii Bool Arith.
Import ListNotations.

Open Scope R_scope.

(** ** Python objects and exceptions *)

(** The objects the functions are applied to.  [PySet] stands for the sized
    iterables without indexing ([set], [frozenset]) and [PyGen] for the
    iterables without [len] (generators, iterators); both carry their
    elements in iteration order. *)
#[warnings="-register-all"]
Inductive pyobj : Type :=
| PyNone
| PyNum (x : R)
| PyStr (s : string)
| PyList (items : list pyobj)
| PyTuple (items : list pyobj)
| PySet (items : list pyobj)
| PyGen (items : list pyobj).

(** The exception classes that occur.  [DimensionError] is the class the
    module imports from [linagb_error]; the others are built in. *)
Inductive exn : Type :=
| TypeError
| IndexError
| ZeroDivisionError
| ValueError
| UnboundLocalError
| OverflowError
| DimensionError.

(** The outcome of a call. *)
Inductive res (A : Type) : Type :=
| Ret (a : A)
| Raise (e : exn).

Arguments Ret {A} a.
Arguments Raise {A} e.

Definition bind {A B : Type} (m : res A) (k : A -> res B) : res B :=
  match m with
  | Ret a => k a
  | Raise e => Raise e
  end.

Notation "x <- m ;; k" := (bind m (fun x => k))
  (at level 61, m at next level, right associativity).

(** ** Built-in operations *)

(** [isinstance(obj, Iterable)] *)
Definition is_iterable (obj : pyobj) : bool :=
  match obj with
  | PyStr _ | PyList _ | PyTuple _ | PySet _ | PyGen _ => true
  | PyNone | PyNum _ => false
  end.

(** [type(obj) is str] *)
Definition is_str (obj : pyobj) : bool :=
  match obj with
  | PyStr _ => true
  | _ => false
  end.

(** [len(obj)] *)
Definition py_len (obj : pyobj) : res nat :=
  match obj with
  | PyStr s => Ret (String.length s)
  | PyList l | PyTuple l | PySet l => Ret (List.length l)
  | PyGen _ | PyNone | PyNum _ => Raise TypeError
  end.

(** [seq[i]] on a list of items. *)
Definition item_at (l : list pyobj) (i : nat) : res pyobj :=
  match nth_error l i with
  | Some x => Ret x
  | None => Raise IndexError
  end.

(** [obj[i]] for an index [i >= 0]. *)
Definition py_getitem (obj : pyobj) (i : nat) : res pyobj :=
  match obj with
  | PyList l | PyTuple l => item_at l i
  | PyStr s =>
      match String.get i s with
      | Some c => Ret (PyStr (String c EmptyString))
      | None => Raise IndexError
      end
  | PySet _ | PyGen _ | PyNone | PyNum _ => Raise TypeError
  end.

(** [a + b] *)
Definition py_add (a b : pyobj) : res pyobj :=
  match a, b with
  | PyNum x, PyNum y => Ret (PyNum (x + y))
  | PyStr s, PyStr t => Ret (PyStr (s ++ t))
  | PyList l, PyList m => Ret (PyList (l ++ m))
  | PyTuple l, PyTuple m => Ret (PyTuple (l ++ m))
  | _, _ => Raise TypeError
  end.

(** [a * f] where [f] is a float. *)
Definition py_mul_float (a : pyobj) (f : R) : res R :=
  match a with
  | PyNum x => Ret (x * f)
  | _ => Raise TypeError
  end.

(** [a ** 2] *)
Definition py_pow2 (a : pyobj) : res R :=
  match a with
  | PyNum x => Ret (x ^ 2)
  | _ => Raise TypeError
  end.

(** [a / b] *)
Definition py_truediv (a b : pyobj) : res R :=
  match a, b with
  | PyNum x, PyNum y =>
      if Req_dec_T y 0 then Raise ZeroDivisionError else Ret (x / y)
  | _, _ => Raise TypeError
  end.

(** [a == 0]: an object that is not a number is unequal to [0]. *)
Definition py_eq0 (a : pyobj) : bool :=
  match a with
  | PyNum x => if Req_dec_T x 0 then true else false
  | _ => false
  end.

(** [a > 0] *)
Definition py_gt0 (a : pyobj) : res bool :=
  match a with
  | PyNum x => Ret (if Rlt_dec 0 x then true else false)
  | _ => Raise TypeError
  end.

(** ** The functions of [math] *)

Definition math_radians (a : pyobj) : res R :=
  match a with
  | PyNum x => Ret (x * (PI / 180))
  | _ => Raise TypeError
  end.

Definition math_degrees (x : R) : R := x * (180 / PI).

Definition math_cos (x : R) : R := cos x.
Definition math_sin (x : R) : R := sin x.
Definition math_atan (x : R) : R := atan x.

Definition math_sqrt (x : R) : res R :=
  if Rlt_dec x 0 then Raise ValueError else Ret (sqrt x).

Definition math_acos (x : R) : res R :=
  if Rlt_dec x (-1) then Raise ValueError
  else if Rlt_dec 1 x then Raise ValueError
  else Ret (acos x).

(** ** The module *)

(** [validate_vector(obj, throwerr=False)] *)
Definition validate_vector (obj : pyobj) (throwerr : bool) : res bool :=
  c <- (if is_iterable obj && negb (is_str obj)
        then n <- py_len obj ;; Ret ((1 <? n)%nat && (n <? 4)%nat)
        else Ret false) ;;
  if c then Ret true
  else if throwerr then Raise TypeError
  else Ret false.

(** [two_to_three(vector_2)]: a function that ends without [return]
    returns [None]. *)
Definition two_to_three (vector_2 : pyobj) : res pyobj :=
  ok <- validate_vector vector_2 false ;;
  if ok then
    n <- py_len vector_2 ;;
    if (n =? 3)%nat then Ret vector_2
    else py_add vector_2 (PyList [PyNum 0])
  else Ret PyNone.

(** [rec(vector, physics=False)] *)
Definition rec (vector : pyobj) (physics : bool) : res pyobj :=
  ok <- validate_vector vector false ;;
  if negb ok then Ret (PyList [])
  else
    n <- py_len vector ;;
    if (n =? 2)%nat then
      v0 <- py_getitem vector 0 ;;
      v1 <- py_getitem vector 1 ;;
      t <- math_radians v1 ;;
      x <- py_mul_float v0 (math_cos t) ;;
      v0' <- py_getitem vector 0 ;;
      v1' <- py_getitem vector 1 ;;
      t' <- math_radians v1' ;;
      y <- py_mul_float v0' (math_sin t') ;;
      Ret (PyList [PyNum x; PyNum y])
    else
      inclin <- (if physics then py_getitem vector 1
                 else py_getitem vector 2) ;;
      azimuth <- (if physics then py_getitem vector 2
                  else py_getitem vector 1) ;;
      v0 <- py_getitem vector 0 ;;
      i1 <- math_radians inclin ;;
      p1 <- py_mul_float v0 (math_sin i1) ;;
      a1 <- math_radians azimuth ;;
      v0' <- py_getitem vector 0 ;;
      i2 <- math_radians inclin ;;
      p2 <- py_mul_float v0' (math_sin i2) ;;
      a2 <- math_radians azimuth ;;
      v0'' <- py_getitem vector 0 ;;
      i3 <- math_radians inclin ;;
      z <- py_mul_float v0'' (math_cos i3) ;;
      Ret (PyList [PyNum (p1 * math_cos a1); PyNum (p2 * math_sin a2);
                   PyNum z]).

(** The angle the two branches of [pol] compute from [vector[0]] and
    [vector[1]]: [90] or [-90] when [vector[0] == 0], and
    [degrees(atan(vector[1] / vector[0]))] otherwise. *)
Definition pol_angle (vector : pyobj) : res R :=
  v0 <- py_getitem vector 0 ;;
  if py_eq0 v0 then
    v1 <- py_getitem vector 1 ;;
    b <- py_gt0 v1 ;;
    Ret (if b then 90 else -90)
  else
    v1 <- py_getitem vector 1 ;;
    v0' <- py_getitem vector 0 ;;
    q <- py_truediv v1 v0' ;;
    Ret (math_degrees (math_atan q)).

(** [pol(vector, physics=False)] *)
Definition pol (vector : pyobj) (physics : bool) : res pyobj :=
  ok <- validate_vector vector false ;;
  if negb ok then Ret (PyList [])
  else
    n <- py_len vector ;;
    if (n =? 2)%nat then
      ang <- pol_angle vector ;;
      v0 <- py_getitem vector 0 ;;
      s0 <- py_pow2 v0 ;;
      v1 <- py_getitem vector 1 ;;
      s1 <- py_pow2 v1 ;;
      r <- math_sqrt (s0 + s1) ;;
      Ret (PyList [PyNum r; PyNum ang])
    else
      v0 <- py_getitem vector 0 ;;
      s0 <- py_pow2 v0 ;;
      v1 <- py_getitem vector 1 ;;
      s1 <- py_pow2 v1 ;;
      v2 <- py_getitem vector 2 ;;
      s2 <- py_pow2 v2 ;;
      r <- math_sqrt (s0 + s1 + s2) ;;
      azimuth <- pol_angle vector ;;
      v2' <- py_getitem vector 2 ;;
      q <- py_truediv v2' (PyNum r) ;;
      a <- math_acos q ;;
      let inclination := math_degrees a in
      if physics then Ret (PyList [PyNum r; PyNum inclination; PyNum azimuth])
      else Ret (PyList [PyNum r; PyNum azimuth; PyNum inclination]).

(** [result[i] += v[i]]: the accumulator holds numbers, for which [+=] is
    [+] followed by the store. *)
Definition iadd_item (result : list pyobj) (i : nat) (v : pyobj)
  : res (list pyobj) :=
  a <- item_at result i ;;
  b <- py_getitem v i ;;
  s <- py_add a b ;;
  Ret (firstn i result ++ s :: skipn (S i) result).

(** The loop [for v in args: ...] of [add_cartes], on the remaining
    arguments and the current [result]. *)
Fixpoint add_loop (base_dim : nat) (fixdim : bool) (vs : list pyobj)
  (result : list pyobj) : res (list pyobj) :=
  match vs with
  | [] => Ret result
  | v :: rest =>
      ok <- validate_vector v true ;;
      if ok then
        n <- py_len v ;;
        if negb (n =? base_dim)%nat && negb fixdim then Raise DimensionError
        else
          r0 <- iadd_item result 0 v ;;
          r1 <- iadd_item r0 1 v ;;
          n' <- py_len v ;;
          r2 <- (if (base_dim =? n')%nat && (n' =? 3)%nat
                 then iadd_item r1 2 v else Ret r1) ;;
          add_loop base_dim fixdim rest r2
      else add_loop base_dim fixdim rest result
  end.

(** The body of the [try] of [add_cartes]; [args] is the tuple of the
    positional arguments.  Reading a local variable that was never assigned
    raises [UnboundLocalError]. *)
Definition add_cartes_try (args : list pyobj) (fixdim : bool) : res pyobj :=
  if (List.length args =? 1)%nat then
    a0 <- item_at args 0 ;;
    ok <- validate_vector a0 true ;;
    if ok then Ret a0 else Raise UnboundLocalError
  else
    a0 <- item_at args 0 ;;
    ok <- validate_vector a0 true ;;
    base_dim <- (if ok then py_len a0 else Raise UnboundLocalError) ;;
    let result := if (base_dim =? 2)%nat then [PyNum 0; PyNum 0]
                  else [PyNum 0; PyNum 0; PyNum 0] in
    r <- add_loop base_dim fixdim args result ;;
    Ret (PyList r).

(** [add_cartes(args..., fixdim=False)]: the [except] clause catches
    [TypeError] and [DimensionError] only. *)
Definition add_cartes (args : list pyobj) (fixdim : bool) : res pyobj :=
  match add_cartes_try args fixdim with
  | Raise TypeError | Raise DimensionError => Ret (PyList [])
  | r => r
  end.

(** ** Vectors of numbers *)

(** The numbers of a list of objects, when all of them are numbers. *)
Fixpoint nums (l : list pyobj) : option (list R) :=
  match l with
  | [] => Some []
  | PyNum x :: t =>
      match nums t with
      | Some xs => Some (x :: xs)
      | None => None
      end
  | _ :: _ => None
  end.

(** The components of a [list] or [tuple] of numbers. *)
Definition components (v : pyobj) : option (list R) :=
  match v with
  | PyList l | PyTuple l => nums l
  | _ => None
  end.

(** ** The validator as the specification words it *)

(** An ordered collection with indexed access. *)
Definition is_ordered_collection (obj : pyobj) : bool :=
  match obj with
  | PyStr _ | PyList _ | PyTuple _ => true
  | PySet _ | PyGen _ | PyNone | PyNum _ => false
  end.

(** The element count of an object that has one. *)
Definition element_count (obj : pyobj) : option nat :=
  match obj with
  | PyStr s => Some (String.length s)
  | PyList l | PyTuple l | PySet l => Some (List.length l)
  | PyGen _ | PyNone | PyNum _ => None
  end.

(** Valid: an ordered collection with a defined element count, not a text
    string, of exactly 2 or 3 elements. *)
Definition valid_by_spec (obj : pyobj) : bool :=
  is_ordered_collection obj && negb (is_str obj) &&
  match element_count obj with
  | Some n => (n =? 2)%nat || (n =? 3)%nat
  | None => false
  end.

(** ** Closed forms used in the statements *)

(** A vector: a [list] or [tuple] of 2 or 3 numbers. *)
Definition is_vector (a : pyobj) (l : list R) : Prop :=
  components a = Some l /\ (List.length l = 2 \/ List.length l = 3)%nat.

(** The angle [pol] gives for the numbers [x] and [y], in degrees. *)
Definition angle_of (x y : R) : R :=
  if Req_dec_T x 0 then (if Rlt_dec 0 y then 90 else -90)
  else math_degrees (math_atan (y / x)).

(** The sum of the components of index [i], added to [acc] from the first
    vector on. *)
Definition vsum_from (i : nat) (acc : R) (vs : list (list R)) : R :=
  fold_left (fun s l => s + nth i l 0) vs acc.

Definition vsum (i : nat) (vs : list (list R)) : R := vsum_from i 0 vs.

(** The vectors of length 3. *)
Definition only_3d (vs : list (list R)) : list (list R) :=
  filter (fun l => (List.length l =? 3)%nat) vs.

(** The sum of a call of [add_cartes] whose first vector has length
    [base]: [x] and [y] from every vector, [z] from those of length 3. *)
Definition total (base : nat) (vs : list (list R)) : list R :=
  if (base =? 2)%nat then [vsum 0 vs; vsum 1 vs]
  else [vsum 0 vs; vsum 1 vs; vsum 2 (only_3d vs)].

(** Every vector has length [base]. *)
Definition same_dim (base : nat) (vs : list (list R)) : bool :=
  forallb (fun l => (List.length l =? base)%nat) vs.

(** A call returns, or raises one of the [allowed] exceptions. *)
Definition raises_only {A : Type} (allowed : list exn) (r : res A) : Prop :=
  match r with
  | Ret _ => True
  | Raise e => In e allowed
  end.

(** * The module over Python's numbers

    The same functions with the numbers as Python has them: an [int] is an
    integer of any size, a [float] is a binary64 value, and the arithmetic is
    the one of CPython ([int] exact, [float] rounded to nearest even, an
    [int] converted to [float] where the two meet).  [cos], [sin], [atan],
    [acos] and [pow] are functions of the platform's C library, which is not
    part of the repository: they are a parameter of the embedding. *)

(** The functions [math] and [float.__pow__] take from the C library. *)
Record libm : Type := {
  libm_cos : float -> float;
  libm_sin : float -> float;
  libm_atan : float -> float;
  libm_acos : float -> float;
  libm_pow : float -> float -> float
}.

(** A stand-in for the C library, the first terms of the series at 0; it
    instantiates statements that hold for every library. *)
Definition first_order_libm : libm := {|
  libm_cos := fun _ => 1%float;
  libm_sin := fun x => x;
  libm_atan := fun x => x;
  libm_acos := fun x => (0x1.921fb54442d18p+0 - x)%float;
  libm_pow := fun x _ => (x * x)%float
|}.

Module B64.

(** ** Objects *)

#[warnings="-register-all"]
Inductive pyobj : Type :=
| PyNone
| PyInt (z : Z)
| PyFloat (f : float)
| PyStr (s : string)
| PyList (items : list pyobj)
| PyTuple (items : list pyobj)
| PySet (items : list pyobj)
| PyGen (items : list pyobj).

Definition is_iterable (obj : pyobj) : bool :=
  match obj with
  | PyStr _ | PyList _ | PyTuple _ | PySet _ | PyGen _ => true
  | PyNone | PyInt _ | PyFloat _ => false
  end.

Definition is_str (obj : pyobj) : bool :=
  match obj with
  | PyStr _ => true
  | _ => false
  end.

Definition py_len (obj : pyobj) : res nat :=
  match obj with
  | PyStr s => Ret (String.length s)
  | PyList l | PyTuple l | PySet l => Ret (List.length l)
  | PyGen _ | PyNone | PyInt _ | PyFloat _ => Raise TypeError
  end.

Definition item_at (l : list pyobj) (i : nat) : res pyobj :=
  match nth_error l i with
  | Some x => Ret x
  | None => Raise IndexError
  end.

Definition py_getitem (obj : pyobj) (i : nat) : res pyobj :=
  match obj with
  | PyList l | PyTuple l => item_at l i
  | PyStr s =>
      match String.get i s with
      | Some c => Ret (PyStr (String c EmptyString))
      | None => Raise IndexError
      end
  | PySet _ | PyGen _ | PyNone | PyInt _ | PyFloat _ => Raise TypeError
  end.

(** ** Numbers *)

(** The [float] nearest to an [int], ties to even; infinite when the [int]
    is beyond the range. *)
Definition int_to_float (z : Z) : float :=
  SF2Prim (binary_normalize prec emax z 0 false).

(** [PyFloat_AsDouble]: the C double of a number; an [int] too large to
    convert raises [OverflowError]. *)
Definition as_double (a : pyobj) : res float :=
  match a with
  | PyFloat f => Ret f
  | PyInt z =>
      let f := int_to_float z in
      if is_infinity f then Raise OverflowError else Ret f
  | _ => Raise TypeError
  end.

(** The quotient of two [int], [b] not zero, rounded once to the nearest
    [float]; a zero quotient has the sign of the operands. *)
Definition int_true_div (a b : Z) : float :=
  let negate := xorb (a <? 0)%Z (b <? 0)%Z in
  match Z.abs a, Z.abs b with
  | Zpos ma, Zpos mb =>
      let '(mz, ez, lz) :=
        SFdiv_core_binary prec emax (Zpos ma) 0 (Zpos mb) 0 in
      SF2Prim (binary_round_aux prec emax negate mz ez lz)
  | _, _ => if negate then PrimFloat.neg_zero else PrimFloat.zero
  end.

(** [a + b] *)
Definition py_add (a b : pyobj) : res pyobj :=
  match a, b with
  | PyInt x, PyInt y => Ret (PyInt (x + y))
  | PyFloat x, PyFloat y => Ret (PyFloat (x + y))
  | PyInt _, PyFloat y => x <- as_double a ;; Ret (PyFloat (x + y))
  | PyFloat x, PyInt _ => y <- as_double b ;; Ret (PyFloat (x + y))
  | PyStr s, PyStr t => Ret (PyStr (s ++ t))
  | PyList l, PyList m => Ret (PyList (l ++ m))
  | PyTuple l, PyTuple m => Ret (PyTuple (l ++ m))
  | _, _ => Raise TypeError
  end.

(** [a * f] where [f] is a float. *)
Definition py_mul_float (a : pyobj) (f : float) : res float :=
  match a with
  | PyInt _ | PyFloat _ => x <- as_double a ;; Ret (x * f)%float
  | _ => Raise TypeError
  end.

(** [a / b] *)
Definition py_truediv (a b : pyobj) : res float :=
  match a, b with
  | PyInt x, PyInt y =>
      if (y =? 0)%Z then Raise ZeroDivisionError
      else
        let q := int_true_div x y in
        if is_infinity q then Raise OverflowError else Ret q
  | PyInt _, PyFloat _ | PyFloat _, PyInt _ | PyFloat _, PyFloat _ =>
      x <- as_double a ;;
      y <- as_double b ;;
      if (y =? 0)%float then Raise ZeroDivisionError else Ret (x / y)%float
  | _, _ => Raise TypeError
  end.

(** [a == 0]: an object that is not a number is unequal to [0]. *)
Definition py_eq0 (a : pyobj) : bool :=
  match a with
  | PyInt z => (z =? 0)%Z
  | PyFloat f => (f =? 0)%float
  | _ => false
  end.

(** [a > 0] *)
Definition py_gt0 (a : pyobj) : res bool :=
  match a with
  | PyInt z => Ret (0 <? z)%Z
  | PyFloat f => Ret (0 <? f)%float
  | _ => Raise TypeError
  end.

(** ** The functions of [math] *)

Definition pi : float := 0x1.921fb54442d18p+1%float.
Definition degToRad : float := (pi / 180)%float.
Definition radToDeg : float := (180 / pi)%float.

(** [math_1]: the call of a C function of one argument.  A NaN result of
    an argument that is not NaN, and an infinite result of a finite
    argument, raise [ValueError] (none of the functions used here is
    declared as overflowing); any other result is returned.  The C
    library is taken to leave [errno] unset when its result is finite. *)
Definition math_1 (func : float -> float) (x : float) : res float :=
  let r := func x in
  if is_nan r && negb (is_nan x) then Raise ValueError
  else if is_infinity r && is_finite x then Raise ValueError
  else Ret r.

Definition math_radians (a : pyobj) : res float :=
  x <- as_double a ;; Ret (x * degToRad)%float.

Definition math_degrees (x : float) : float := (x * radToDeg)%float.

Definition math_sqrt (a : pyobj) : res float :=
  x <- as_double a ;; math_1 PrimFloat.sqrt x.

Section WithLibm.

Variable m : libm.

Definition math_cos (x : float) : res float := math_1 (libm_cos m) x.
Definition math_sin (x : float) : res float := math_1 (libm_sin m) x.
Definition math_atan (x : float) : res float := math_1 (libm_atan m) x.
Definition math_acos (x : float) : res float := math_1 (libm_acos m) x.

(** [x ** 2] for a float, as [float_pow] does it: the special cases first
    (NaN, infinity, zero, and one after the sign is dropped for the even
    exponent), then [pow] of the C library on the absolute value; an
    infinite result raises [OverflowError].  The C library is taken to
    set [errno] for no other result than an infinite one or zero. *)
Definition float_pow2 (x : float) : res float :=
  if is_nan x then Ret x
  else if is_infinity x then Ret PrimFloat.infinity
  else if (x =? 0)%float then Ret PrimFloat.zero
  else
    let a := PrimFloat.abs x in
    if (a =? 1)%float then Ret PrimFloat.one
    else
      let r := libm_pow m a 2%float in
      if is_infinity r then Raise OverflowError else Ret r.

(** [a ** 2] *)
Definition py_pow2 (a : pyobj) : res pyobj :=
  match a with
  | PyInt z => Ret (PyInt (z * z))
  | PyFloat f => r <- float_pow2 f ;; Ret (PyFloat r)
  | _ => Raise TypeError
  end.

(** ** The module *)

Definition validate_vector (obj : pyobj) (throwerr : bool) : res bool :=
  c <- (if is_iterable obj && negb (is_str obj)
        then n <- py_len obj ;; Ret ((1 <? n)%nat && (n <? 4)%nat)
        else Ret false) ;;
  if c then Ret true
  else if throwerr then Raise TypeError
  else Ret false.

Definition rec (vector : pyobj) (physics : bool) : res pyobj :=
  ok <- validate_vector vector false ;;
  if negb ok then Ret (PyList [])
  else
    n <- py_len vector ;;
    if (n =? 2)%nat then
      v0 <- py_getitem vector 0 ;;
      v1 <- py_getitem vector 1 ;;
      t <- math_radians v1 ;;
      c <- math_cos t ;;
      x <- py_mul_float v0 c ;;
      v0' <- py_getitem vector 0 ;;
      v1' <- py_getitem vector 1 ;;
      t' <- math_radians v1' ;;
      s <- math_sin t' ;;
      y <- py_mul_float v0' s ;;
      Ret (PyList [PyFloat x; PyFloat y])
    else
      inclin <- (if physics then py_getitem vector 1
                 else py_getitem vector 2) ;;
      azimuth <- (if physics then py_getitem vector 2
                  else py_getitem vector 1) ;;
      v0 <- py_getitem vector 0 ;;
      i1 <- math_radians inclin ;;
      s1 <- math_sin i1 ;;
      p1 <- py_mul_float v0 s1 ;;
      a1 <- math_radians azimuth ;;
      c1 <- math_cos a1 ;;
      v0' <- py_getitem vector 0 ;;
      i2 <- math_radians inclin ;;
      s2 <- math_sin i2 ;;
      p2 <- py_mul_float v0' s2 ;;
      a2 <- math_radians azimuth ;;
      s3 <- math_sin a2 ;;
      v0'' <- py_getitem vector 0 ;;
      i3 <- math_radians inclin ;;
      c3 <- math_cos i3 ;;
      z <- py_mul_float v0'' c3 ;;
      Ret (PyList [PyFloat (p1 * c1); PyFloat (p2 * s3); PyFloat z]).

Definition pol_angle (vector : pyobj) : res pyobj :=
  v0 <- py_getitem vector 0 ;;
  if py_eq0 v0 then
    v1 <- py_getitem vector 1 ;;
    b <- py_gt0 v1 ;;
    Ret (PyInt (if b then 90 else -90))
  else
    v1 <- py_getitem vector 1 ;;
    v0' <- py_getitem vector 0 ;;
    q <- py_truediv v1 v0' ;;
    t <- math_atan q ;;
    Ret (PyFloat (math_degrees t)).

Definition pol (vector : pyobj) (physics : bool) : res pyobj :=
  ok <- validate_vector vector false ;;
  if negb ok then Ret (PyList [])
  else
    n <- py_len vector ;;
    if (n =? 2)%nat then
      ang <- pol_angle vector ;;
      v0 <- py_getitem vector 0 ;;
      s0 <- py_pow2 v0 ;;
      v1 <- py_getitem vector 1 ;;
      s1 <- py_pow2 v1 ;;
      s <- py_add s0 s1 ;;
      r <- math_sqrt s ;;
      Ret (PyList [PyFloat r; ang])
    else
      v0 <- py_getitem vector 0 ;;
      s0 <- py_pow2 v0 ;;
      v1 <- py_getitem vector 1 ;;
      s1 <- py_pow2 v1 ;;
      s01 <- py_add s0 s1 ;;
      v2 <- py_getitem vector 2 ;;
      s2 <- py_pow2 v2 ;;
      s <- py_add s01 s2 ;;
      r <- math_sqrt s ;;
      azimuth <- pol_angle vector ;;
      v2' <- py_getitem vector 2 ;;
      q <- py_truediv v2' (PyFloat r) ;;
      a <- math_acos q ;;
      let inclination := PyFloat (math_degrees a) in
      if physics then Ret (PyList [PyFloat r; inclination; azimuth])
      else Ret (PyList [PyFloat r; azimuth; inclination]).

End WithLibm.

Definition iadd_item (result : list pyobj) (i : nat) (v : pyobj)
  : res (list pyobj) :=
  a <- item_at result i ;;
  b <- py_getitem v i ;;
  s <- py_add a b ;;
  Ret (firstn i result ++ s :: skipn (S i) result).

Fixpoint add_loop (base_dim : nat) (fixdim : bool) (vs : list pyobj)
  (result : list pyobj) : res (list pyobj) :=
  match vs with
  | [] => Ret result
  | v :: rest =>
      ok <- validate_vector v true ;;
      if ok then
        n <- py_len v ;;
        if negb (n =? base_dim)%nat && negb fixdim then Raise DimensionError
        else
          r0 <- iadd_item result 0 v ;;
          r1 <- iadd_item r0 1 v ;;
          n' <- py_len v ;;
          r2 <- (if (base_dim =? n')%nat && (n' =? 3)%nat
                 then iadd_item r1 2 v else Ret r1) ;;
          add_loop base_dim fixdim rest r2
      else add_loop base_dim fixdim rest result
  end.

Definition add_cartes_try (args : list pyobj) (fixdim : bool) : res pyobj :=
  if (List.length args =? 1)%nat then
    a0 <- item_at args 0 ;;
    ok <- validate_vector a0 true ;;
    if ok then Ret a0 else Raise UnboundLocalError
  else
    a0 <- item_at args 0 ;;
    ok <- validate_vector a0 true ;;
    base_dim <- (if ok then py_len a0 else Raise UnboundLocalError) ;;
    let result := if (base_dim =? 2)%nat then [PyInt 0; PyInt 0]
                  else [PyInt 0; PyInt 0; PyInt 0] in
    r <- add_loop base_dim fixdim args result ;;
    Ret (PyList r).

Definition add_cartes (args : list pyobj) (fixdim : bool) : res pyobj :=
  match add_cartes_try args fixdim with
  | Raise TypeError | Raise DimensionError => Ret (PyList [])
  | r => r
  end.

(** ** Closed forms used in the statements *)

Definition is_number (a : pyobj) : bool :=
  match a with
  | PyInt _ | PyFloat _ => true
  | _ => false
  end.

(** A vector: a [list] or [tuple] of 2 or 3 numbers. *)
Definition is_vector (a : pyobj) (l : list pyobj) : Prop :=
  (a = PyList l \/ a = PyTuple l) /\
  forallb is_number l = true /\
  (List.length l = 2 \/ List.length l = 3)%nat.

(** The sum [((acc + x1) + x2) + ...] as Python evaluates it. *)
Fixpoint py_sum_from (acc : pyobj) (xs : list pyobj) : res pyobj :=
  match xs with
  | [] => Ret acc
  | x :: rest => s <- py_add acc x ;; py_sum_from s rest
  end.

(** The sum of the components of index [i], from the [int] zero. *)
Definition vsum (i : nat) (vs : list (list pyobj)) : res pyobj :=
  py_sum_from (PyInt 0) (map (fun l => nth i l (PyInt 0)) vs).

Definition only_3d (vs : list (list pyobj)) : list (list pyobj) :=
  filter (fun l => (List.length l =? 3)%nat) vs.

Definition same_dim (base : nat) (vs : list (list pyobj)) : bool :=
  forallb (fun l => (List.length l =? base)%nat) vs.

(** The sums of a call whose first vector has length [base]: [x] and [y]
    over every vector, [z] over those of length 3. *)
Definition total (base : nat) (vs : list (list pyobj))
  : res (list pyobj) :=
  x <- vsum 0 vs ;;
  y <- vsum 1 vs ;;
  if (base =? 2)%nat then Ret [x; y]
  else z <- vsum 2 (only_3d vs) ;; Ret [x; y; z].

(** The componentwise sum of vectors of length [base]. *)
Definition componentwise_sum (base : nat) (vs : list (list pyobj))
  : res (list pyobj) :=
  x <- vsum 0 vs ;;
  y <- vsum 1 vs ;;
  if (base =? 2)%nat then Ret [x; y]
  else z <- vsum 2 vs ;; Ret [x; y; z].

End B64.

(** * Properties in exact arithmetic

    The properties of the first embedding. *)

(** ** Properties of [validate_vector] *)

Lemma validate_vector_sized (obj : pyobj) (n : nat) (throwerr : bool) :
  is_iterable obj = true -> is_str obj = false -> py_len obj = Ret n ->
  validate_vector obj throwerr =
  if (n =? 2)%nat || (n =? 3)%nat then Ret true
  else if throwerr then Raise TypeError else Ret false.
Proof.
  intros Hi Hs Hn. unfold validate_vector. rewrite Hi, Hs, Hn. simpl.
  destruct n as [|[|[|[|n]]]]; reflexivity.
Qed.

Lemma validate_vector_rejected (obj : pyobj) (throwerr : bool) :
  is_iterable obj = false \/ is_str obj = true ->
  validate_vector obj throwerr =
  if throwerr then Raise TypeError else Ret false.
Proof.
  intros [H|H]; unfold validate_vector; rewrite H;
    rewrite ?andb_false_r; reflexivity.
Qed.

(** With [throwerr] set the validator never returns [False]. *)
Lemma validate_vector_throw (obj : pyobj) :
  validate_vector obj true = Ret true \/
  validate_vector obj true = Raise TypeError.
Proof.
  unfold validate_vector.
  destruct (is_iterable obj && negb (is_str obj)); simpl; [|now right].
  destruct (py_len obj) as [n|e] eqn:E; simpl.
  - destruct ((1 <? n)%nat && (n <? 4)%nat); auto.
  - destruct obj; simpl in E; inversion E; now right.
Qed.

(** The two modes agree on the inputs they accept. *)
Lemma validate_vector_modes (obj : pyobj) :
  validate_vector obj true = Ret true <->
  validate_vector obj false = Ret true.
Proof.
  unfold validate_vector.
  destruct (is_iterable obj && negb (is_str obj)); simpl.
  - destruct (py_len obj) as [n|e]; simpl.
    + destruct ((1 <? n)%nat && (n <? 4)%nat); split; intros H;
        (reflexivity || discriminate).
    + split; intros H; discriminate.
  - split; intros H; discriminate.
Qed.

(** C3, as the code has it: for every input that validation does not accept,
    [validate_vector(obj, True)] raises the built-in [TypeError]. *)
Theorem validate_vector_raises_TypeError (obj : pyobj) :
  validate_vector obj false <> Ret true ->
  validate_vector obj true = Raise TypeError.
Proof.
  intros H. destruct (validate_vector_throw obj) as [T|T]; [|exact T].
  apply validate_vector_modes in T. contradiction.
Qed.

Lemma validate_vector_raises_TypeError_witness :
  validate_vector (PyList [PyNum 1]) true = Raise TypeError.
Proof.
  apply (validate_vector_raises_TypeError (PyList [PyNum 1])).
  simpl. discriminate.
Defined.

(** C3 refuted: the error raised for the invalid input [5] is a [TypeError],
    the same kind that the unrelated failures of [two_to_three((1, 2))]
    (a tuple concatenated with a list) and of [rec(["a", "b"])] (arithmetic
    on text) raise; its kind does not tell it apart. *)
Lemma validate_vector_error_not_distinct :
  validate_vector (PyNum 5) true = Raise TypeError /\
  two_to_three (PyTuple [PyNum 1; PyNum 2]) = Raise TypeError /\
  rec (PyList [PyStr "a"; PyStr "b"]) false = Raise TypeError.
Proof. repeat split. Qed.

(** C4, as the code has it: an object that is not iterable, or is a [str],
    is rejected; an iterable other than a [str] that has an element count
    [n] is accepted exactly when [n] is 2 or 3, whatever its elements are
    and whether or not it is ordered. *)
Theorem validate_vector_iff (obj : pyobj) :
  (is_iterable obj = false \/ is_str obj = true ->
   validate_vector obj false = Ret false) /\
  (forall n, is_iterable obj = true -> is_str obj = false ->
             py_len obj = Ret n ->
             validate_vector obj false = Ret ((n =? 2)%nat || (n =? 3)%nat)).
Proof.
  split.
  - intros H. now rewrite validate_vector_rejected.
  - intros n Hi Hs Hn. rewrite (validate_vector_sized obj n) by assumption.
    now destruct ((n =? 2)%nat || (n =? 3)%nat).
Qed.

(** C4 refuted: a set of two elements is accepted although it is not an
    ordered collection, and for an iterable without [len] the call raises
    instead of returning [False]. *)
Lemma validate_vector_not_valid_by_spec :
  validate_vector (PySet [PyNum 1; PyNum 2]) false = Ret true /\
  valid_by_spec (PySet [PyNum 1; PyNum 2]) = false /\
  validate_vector (PyGen [PyNum 1; PyNum 2]) false = Raise TypeError /\
  valid_by_spec (PyGen [PyNum 1; PyNum 2]) = false.
Proof. repeat split. Qed.

Lemma validate_vector_iff_witness :
  validate_vector (PyTuple [PyNum 1; PyNum 2]) false = Ret true /\
  validate_vector (PyStr "ab") false = Ret false.
Proof.
  split.
  - apply (proj2 (validate_vector_iff (PyTuple [PyNum 1; PyNum 2])) 2%nat);
      reflexivity.
  - apply (proj1 (validate_vector_iff (PyStr "ab"))). right. reflexivity.
Defined.

(** ** Properties of [two_to_three] *)

(** C10, as the code has it: [two_to_three] returns [None] when validation
    returns [False], the input itself when it is valid with 3 elements, and
    [vector_2 + [0]] when it is valid with 2 elements: the list extended by
    [0] for a list, a [TypeError] for a tuple. *)
Theorem two_to_three_cases (vector_2 : pyobj) :
  (validate_vector vector_2 false = Ret false ->
   two_to_three vector_2 = Ret PyNone) /\
  (validate_vector vector_2 false = Ret true ->
   py_len vector_2 = Ret 3%nat ->
   two_to_three vector_2 = Ret vector_2) /\
  (validate_vector vector_2 false = Ret true ->
   py_len vector_2 = Ret 2%nat ->
   two_to_three vector_2 = py_add vector_2 (PyList [PyNum 0]) /\
   (forall l, vector_2 = PyList l ->
              two_to_three vector_2 = Ret (PyList (l ++ [PyNum 0]))) /\
   (forall l, vector_2 = PyTuple l ->
              two_to_three vector_2 = Raise TypeError)).
Proof.
  unfold two_to_three. split; [|split].
  - intros H. now rewrite H.
  - intros H L. now rewrite H; simpl; rewrite L.
  - intros H L. rewrite H; simpl. rewrite L; simpl.
    split; [reflexivity|]. split; intros l E; subst; reflexivity.
Qed.

(** C10 refuted: for an iterable without [len] validation raises instead of
    returning [False], and [two_to_three] raises the same [TypeError]
    instead of returning [None]. *)
Lemma two_to_three_generator_raises :
  validate_vector (PyGen [PyNum 1; PyNum 2]) false = Raise TypeError /\
  two_to_three (PyGen [PyNum 1; PyNum 2]) = Raise TypeError.
Proof. split; reflexivity. Qed.

Lemma two_to_three_cases_witness :
  two_to_three (PyNum 7) = Ret PyNone /\
  two_to_three (PyTuple [PyNum 1; PyNum 2; PyNum 3]) =
    Ret (PyTuple [PyNum 1; PyNum 2; PyNum 3]) /\
  two_to_three (PyList [PyNum 1; PyNum 2]) =
    Ret (PyList [PyNum 1; PyNum 2; PyNum 0]) /\
  two_to_three (PyTuple [PyNum 1; PyNum 2]) = Raise TypeError.
Proof.
  split; [|split; [|split]].
  - apply (proj1 (two_to_three_cases (PyNum 7))). reflexivity.
  - apply (proj1 (proj2 (two_to_three_cases
             (PyTuple [PyNum 1; PyNum 2; PyNum 3])))); reflexivity.
  - apply (proj1 (proj2 (proj2 (proj2 (two_to_three_cases
             (PyList [PyNum 1; PyNum 2]))) eq_refl eq_refl))
           [PyNum 1; PyNum 2] eq_refl).
  - apply (proj2 (proj2 (proj2 (proj2 (two_to_three_cases
             (PyTuple [PyNum 1; PyNum 2]))) eq_refl eq_refl))
           [PyNum 1; PyNum 2] eq_refl).
Defined.

(** ** Properties of [add_cartes] *)

(** C9: a call without arguments takes the [else] branch, where [args[0]]
    raises [IndexError]; the [except] clause does not catch it. *)
Theorem add_cartes_no_args (fixdim : bool) :
  add_cartes_try [] fixdim = Raise IndexError /\
  add_cartes [] fixdim = Raise IndexError.
Proof. split; reflexivity. Qed.

(** ** Evaluation of [rec] and [pol] on vectors of numbers *)

Lemma nums_map (l : list pyobj) (xs : list R) :
  nums l = Some xs -> l = map PyNum xs.
Proof.
  revert xs. induction l as [|a l IH]; intros xs H; simpl in H.
  - now inversion H.
  - destruct a; try discriminate.
    destruct (nums l) as [ys|]; try discriminate.
    inversion H; subst. simpl. now rewrite (IH ys).
Qed.

Lemma components_shape (v : pyobj) (xs : list R) :
  components v = Some xs ->
  v = PyList (map PyNum xs) \/ v = PyTuple (map PyNum xs).
Proof.
  destruct v; simpl; try discriminate; intros H;
    apply nums_map in H; subst; auto.
Qed.

(** Split a [list] or [tuple] of numbers [v] into its two shapes. *)
Ltac by_shape H :=
  let E := fresh "E" in
  destruct (components_shape _ _ H) as [E|E]; subst.

Lemma math_sqrt_nonneg (a : R) : 0 <= a -> math_sqrt a = Ret (sqrt a).
Proof.
  intros H. unfold math_sqrt. destruct (Rlt_dec a 0); [lra|reflexivity].
Qed.

Lemma pol_angle_nums (v : pyobj) (x y : R) (t : list R) :
  components v = Some (x :: y :: t) -> pol_angle v = Ret (angle_of x y).
Proof.
  intros H. unfold pol_angle, angle_of.
  destruct (components_shape _ _ H) as [E|E]; subst v; simpl;
    destruct (Req_dec_T x 0); simpl; try reflexivity;
    destruct (Rlt_dec 0 y); reflexivity.
Qed.

Lemma rec_2d (v : pyobj) (r a : R) (physics : bool) :
  components v = Some [r; a] ->
  rec v physics =
  Ret (PyList [PyNum (r * cos (a * (PI / 180)));
               PyNum (r * sin (a * (PI / 180)))]).
Proof.
  intros H. by_shape H; reflexivity.
Qed.

Lemma pol_2d (v : pyobj) (x y : R) (physics : bool) :
  components v = Some [x; y] ->
  pol v physics =
  Ret (PyList [PyNum (sqrt (x ^ 2 + y ^ 2)); PyNum (angle_of x y)]).
Proof.
  intros H. unfold pol.
  assert (V : validate_vector v false = Ret true) by (by_shape H; reflexivity).
  assert (L : py_len v = Ret 2%nat) by (by_shape H; reflexivity).
  rewrite V, L. simpl. rewrite (pol_angle_nums v x y []) by exact H. simpl.
  destruct (components_shape _ _ H) as [E|E]; subst v; simpl;
    rewrite math_sqrt_nonneg by nra; reflexivity.
Qed.


(** ** Properties of [pol] and [rec] *)

Lemma angle_of_zero (y : R) :
  angle_of 0 y = if Rlt_dec 0 y then 90 else -90.
Proof.
  unfold angle_of. destruct (Req_dec_T 0 0); [reflexivity|contradiction].
Qed.

(** C1, as the code has it: for the 2D zero vector [pol] returns [0] and
    [-90] (the angle of the case [x == 0] with [y] not positive), and [rec]
    returns [0] and [0]. *)
Theorem zero_vector_2d (v : pyobj) (physics : bool) :
  components v = Some [0; 0] ->
  pol v physics = Ret (PyList [PyNum 0; PyNum (-90)]) /\
  rec v physics = Ret (PyList [PyNum 0; PyNum 0]).
Proof.
  intros H. split.
  - rewrite (pol_2d v 0 0 physics H), angle_of_zero.
    destruct (Rlt_dec 0 0); [lra|].
    replace (0 ^ 2 + 0 ^ 2) with 0 by ring. now rewrite sqrt_0.
  - rewrite (rec_2d v 0 0 physics H). now rewrite !Rmult_0_l.
Qed.

Lemma zero_vector_2d_witness :
  pol (PyTuple [PyNum 0; PyNum 0]) false =
    Ret (PyList [PyNum 0; PyNum (-90)]) /\
  rec (PyTuple [PyNum 0; PyNum 0]) false = Ret (PyList [PyNum 0; PyNum 0]).
Proof.
  apply (zero_vector_2d (PyTuple [PyNum 0; PyNum 0]) false). reflexivity.
Defined.

(** C1 refuted: the angle [pol] returns for [(0, 0)] is [-90], not [90]. *)
Lemma pol_zero_vector_not_90 :
  exists out, pol (PyTuple [PyNum 0; PyNum 0]) false = Ret out /\
              components out = Some [0; -90] /\
              components out <> Some [0; 90].
Proof.
  exists (PyList [PyNum 0; PyNum (-90)]). split; [|split].
  - rewrite (pol_2d (PyTuple [PyNum 0; PyNum 0]) 0 0 false eq_refl),
      angle_of_zero.
    destruct (Rlt_dec 0 0); [lra|].
    replace (0 ^ 2 + 0 ^ 2) with 0 by ring. now rewrite sqrt_0.
  - reflexivity.
  - simpl. intros E. inversion E. lra.
Qed.

(** ** The loop of [add_cartes] *)

Lemma is_vector_shape (a : pyobj) (l : list R) :
  is_vector a l ->
  (exists x y, l = [x; y] /\
     (a = PyList [PyNum x; PyNum y] \/ a = PyTuple [PyNum x; PyNum y])) \/
  (exists x y z, l = [x; y; z] /\
     (a = PyList [PyNum x; PyNum y; PyNum z] \/
      a = PyTuple [PyNum x; PyNum y; PyNum z])).
Proof.
  intros [H [L|L]].
  - destruct l as [|x [|y [|z l]]]; try discriminate.
    left. exists x, y. split; [reflexivity|exact (components_shape _ _ H)].
  - destruct l as [|x [|y [|z [|c l]]]]; try discriminate.
    right. exists x, y, z.
    split; [reflexivity|exact (components_shape _ _ H)].
Qed.

Lemma add_loop_cons (base_dim : nat) (fixdim : bool) (v : pyobj)
  (rest result : list pyobj) :
  add_loop base_dim fixdim (v :: rest) result =
  (ok <- validate_vector v true ;;
   if ok then
     n <- py_len v ;;
     if negb (n =? base_dim)%nat && negb fixdim then Raise DimensionError
     else
       r0 <- iadd_item result 0 v ;;
       r1 <- iadd_item r0 1 v ;;
       n' <- py_len v ;;
       r2 <- (if (base_dim =? n')%nat && (n' =? 3)%nat
              then iadd_item r1 2 v else Ret r1) ;;
       add_loop base_dim fixdim rest r2
   else add_loop base_dim fixdim rest result).
Proof. reflexivity. Qed.

Lemma vsum_from_cons (i : nat) (acc : R) (l : list R) (vs : list (list R)) :
  vsum_from i acc (l :: vs) = vsum_from i (acc + nth i l 0) vs.
Proof. reflexivity. Qed.

Lemma add_loop_base_2 (fixdim : bool) (args : list pyobj)
  (vs : list (list R)) :
  Forall2 is_vector args vs ->
  forall a b,
    add_loop 2 fixdim args [PyNum a; PyNum b] =
    if fixdim || same_dim 2 vs
    then Ret [PyNum (vsum_from 0 a vs); PyNum (vsum_from 1 b vs)]
    else Raise DimensionError.
Proof.
  induction 1 as [|v l args vs Hv _ IH]; intros a b.
  - simpl. now rewrite orb_true_r.
  - destruct (is_vector_shape v l Hv)
      as [(x & y & El & [Ev|Ev])|(x & y & z & El & [Ev|Ev])];
      subst v l; rewrite add_loop_cons, !vsum_from_cons;
      destruct fixdim; cbn -[add_loop same_dim vsum_from];
      try reflexivity; rewrite IH; reflexivity.
Qed.

Lemma add_loop_base_3 (fixdim : bool) (args : list pyobj)
  (vs : list (list R)) :
  Forall2 is_vector args vs ->
  forall a b c,
    add_loop 3 fixdim args [PyNum a; PyNum b; PyNum c] =
    if fixdim || same_dim 3 vs
    then Ret [PyNum (vsum_from 0 a vs); PyNum (vsum_from 1 b vs);
              PyNum (vsum_from 2 c (only_3d vs))]
    else Raise DimensionError.
Proof.
  induction 1 as [|v l args vs Hv _ IH]; intros a b c.
  - simpl. now rewrite orb_true_r.
  - destruct (is_vector_shape v l Hv)
      as [(x & y & El & [Ev|Ev])|(x & y & z & El & [Ev|Ev])];
      subst v l; rewrite add_loop_cons, !vsum_from_cons;
      destruct fixdim; cbn -[add_loop same_dim vsum_from];
      try reflexivity; rewrite IH; reflexivity.
Qed.

Lemma same_dim_Forall (base : nat) (vs : list (list R)) :
  Forall (fun l => List.length l = base) vs -> same_dim base vs = true.
Proof.
  induction 1 as [|l vs E _ IH]; simpl; [reflexivity|].
  rewrite IH, andb_true_r. now apply Nat.eqb_eq.
Qed.

(** The body of the [try] for two or more vectors of numbers. *)
Lemma add_cartes_try_multi (args : list pyobj) (first : list R)
  (rest : list (list R)) (fixdim : bool) :
  Forall2 is_vector args (first :: rest) -> rest <> [] ->
  add_cartes_try args fixdim =
  if fixdim || same_dim (List.length first) (first :: rest)
  then Ret (PyList (map PyNum (total (List.length first) (first :: rest))))
  else Raise DimensionError.
Proof.
  intros F N. unfold add_cartes_try.
  assert (F' := F). inversion F' as [|a0 l0 args' vs' Hv Hrest]; subst.
  destruct rest as [|second rest]; [contradiction|].
  inversion Hrest as [|a1 l1 args'' vs'' Hv1 Hrest']; subst.
  cbn [List.length Nat.eqb item_at nth_error bind].
  destruct (is_vector_shape a0 first Hv)
    as [(x & y & El & [Ev|Ev])|(x & y & z & El & [Ev|Ev])];
    subst a0 first; cbn -[add_loop same_dim total].
  - rewrite (add_loop_base_2 fixdim _ _ F).
    destruct (fixdim || same_dim 2 _); reflexivity.
  - rewrite (add_loop_base_2 fixdim _ _ F).
    destruct (fixdim || same_dim 2 _); reflexivity.
  - rewrite (add_loop_base_3 fixdim _ _ F).
    destruct (fixdim || same_dim 3 _); reflexivity.
  - rewrite (add_loop_base_3 fixdim _ _ F).
    destruct (fixdim || same_dim 3 _); reflexivity.
Qed.

(** ** Further checks on concrete calls *)

(** A single vector is returned as it is. *)
Example add_cartes_single :
  add_cartes [PyTuple [PyNum 1; PyNum 2]] false =
  Ret (PyTuple [PyNum 1; PyNum 2]).
Proof. reflexivity. Qed.

(** A 2D vector adds nothing to [z] on a 3D base. *)
Example add_cartes_promote :
  add_cartes [PyTuple [PyNum 1; PyNum 2; PyNum 3];
              PyTuple [PyNum 4; PyNum 5]] true =
  Ret (PyList [PyNum (0 + 1 + 4); PyNum (0 + 2 + 5); PyNum (0 + 3)]).
Proof. reflexivity. Qed.

(** An invalid argument turns the sum into the empty list. *)
Example add_cartes_invalid :
  add_cartes [PyTuple [PyNum 1; PyNum 2]; PyStr "ab"] true = Ret (PyList []).
Proof. reflexivity. Qed.

(** A set passes validation and fails at the first index. *)
Example rec_of_set :
  rec (PySet [PyNum 1; PyNum 2]) false = Raise TypeError.
Proof. reflexivity. Qed.

(** ** What validation accepts, and the call with one argument *)

Lemma validate_vector_outcome (v : pyobj) :
  validate_vector v false = Ret true \/
  validate_vector v false = Ret false \/
  validate_vector v false = Raise TypeError.
Proof.
  unfold validate_vector.
  destruct (is_iterable v && negb (is_str v)); simpl; [|auto].
  destruct (py_len v) as [n|e] eqn:E; simpl.
  - destruct ((1 <? n)%nat && (n <? 4)%nat); auto.
  - destruct v; simpl in E; inversion E; auto.
Qed.

(** What validation accepts: a list, a tuple or a set of 2 or 3 items. *)
Lemma validate_vector_accepts (v : pyobj) :
  validate_vector v false = Ret true ->
  exists l, (v = PyList l \/ v = PyTuple l \/ v = PySet l) /\
            (List.length l = 2 \/ List.length l = 3)%nat.
Proof.
  assert (L : forall l : list pyobj,
             (1 <? List.length l)%nat && (List.length l <? 4)%nat = true ->
             (List.length l = 2 \/ List.length l = 3)%nat).
  { intros l H. apply andb_prop in H. destruct H as [H1 H2].
    apply Nat.ltb_lt in H1, H2. lia. }
  unfold validate_vector. destruct v as [| |s|l|l|l|l]; simpl;
    try discriminate;
    destruct ((1 <? List.length l)%nat && (List.length l <? 4)%nat) eqn:E;
    try discriminate; intros _; exists l; auto.
Qed.

Lemma validate_vector_throw_invalid (a : pyobj) :
  validate_vector a false <> Ret true ->
  validate_vector a true = Raise TypeError.
Proof.
  intros H. destruct (validate_vector_throw a) as [T|T]; [|exact T].
  apply validate_vector_modes in T. contradiction.
Qed.

Lemma add_cartes_one (a : pyobj) (fixdim : bool) :
  add_cartes [a] fixdim =
  match validate_vector a true with
  | Ret _ => Ret a
  | Raise _ => Ret (PyList [])
  end.
Proof.
  unfold add_cartes, add_cartes_try.
  cbn [List.length Nat.eqb item_at nth_error bind].
  destruct (validate_vector_throw a) as [T|T]; rewrite T; reflexivity.
Qed.

(** X3: a single argument that validation accepts is returned as it is,
    without a look at its items; any other single argument gives the empty
    list. *)
Theorem add_cartes_single_argument (a : pyobj) (fixdim : bool) :
  (validate_vector a false = Ret true -> add_cartes [a] fixdim = Ret a) /\
  (validate_vector a false <> Ret true ->
   add_cartes [a] fixdim = Ret (PyList [])).
Proof.
  rewrite add_cartes_one. split; intros H.
  - now rewrite (proj2 (validate_vector_modes a) H).
  - now rewrite validate_vector_throw_invalid.
Qed.

Lemma add_cartes_single_argument_witness :
  add_cartes [PySet [PyStr "a"; PyNone]] false =
    Ret (PySet [PyStr "a"; PyNone]) /\
  add_cartes [PyList [PyNum 1]] false = Ret (PyList []).
Proof.
  split.
  - apply (proj1 (add_cartes_single_argument (PySet [PyStr "a"; PyNone])
                    false)). reflexivity.
  - apply (proj2 (add_cartes_single_argument (PyList [PyNum 1]) false)).
    simpl. discriminate.
Defined.

(** ** The limits of the arctangent *)






(** ** [two_to_three] and its use with [add_cartes] *)

Lemma validate_vector_list_3 (l : list pyobj) (throwerr : bool) :
  List.length l = 3%nat -> validate_vector (PyList l) throwerr = Ret true.
Proof. intros L. unfold validate_vector. simpl. now rewrite L. Qed.

(** X13: [two_to_three] raises nothing but [TypeError]; what it returns is
    [None] or an object with 3 items that validation accepts and that a
    second call returns unchanged.  A list of two numbers [[x, y]] becomes
    [[x, y, 0]]. *)
Theorem two_to_three_outcomes (v : pyobj) :
  raises_only [TypeError] (two_to_three v) /\
  (forall w, two_to_three v = Ret w ->
     w = PyNone \/
     (validate_vector w false = Ret true /\ py_len w = Ret 3%nat /\
      two_to_three w = Ret w)) /\
  (forall x y, v = PyList [PyNum x; PyNum y] ->
     two_to_three v = Ret (PyList [PyNum x; PyNum y; PyNum 0])).
Proof.
  assert (K3 : forall w, validate_vector w false = Ret true ->
                         py_len w = Ret 3%nat ->
                         two_to_three w = Ret w).
  { intros w V L. unfold two_to_three. now rewrite V; simpl; rewrite L. }
  split; [|split].
  - unfold two_to_three.
    destruct (validate_vector_outcome v) as [V|[V|V]]; rewrite V; simpl;
      auto.
    destruct (validate_vector_accepts v V) as (l & [E|[E|E]] & [L|L]);
      subst v; simpl; rewrite L; simpl; auto.
  - intros w. unfold two_to_three.
    destruct (validate_vector_outcome v) as [V|[V|V]]; rewrite V; simpl;
      try discriminate.
    2: { intros E. inversion E. now left. }
    destruct (validate_vector_accepts v V) as (l & [E|[E|E]] & [L|L]);
      subst v; simpl; rewrite L; simpl; try discriminate;
      intros E; inversion E; subst w; right.
    + assert (L3 : List.length (l ++ [PyNum 0]) = 3%nat)
        by (rewrite length_app, L; reflexivity).
      assert (V3 := validate_vector_list_3 _ false L3).
      split; [exact V3|]. split; [simpl; now rewrite L3|].
      apply K3; [exact V3|simpl; now rewrite L3].
    + split; [exact V|]. split; [simpl; now rewrite L|].
      apply K3; [exact V|simpl; now rewrite L].
    + split; [exact V|]. split; [simpl; now rewrite L|].
      apply K3; [exact V|simpl; now rewrite L].
    + split; [exact V|]. split; [simpl; now rewrite L|].
      apply K3; [exact V|simpl; now rewrite L].
  - intros x y E. subst v. reflexivity.
Qed.

(** X14: for two or more vectors of numbers that all have the length of
    the first, [fixdim] makes no difference. *)
Theorem add_cartes_fixdim_same_dim (args : list pyobj) (first : list R)
  (rest : list (list R)) :
  Forall2 is_vector args (first :: rest) -> rest <> [] ->
  Forall (fun l => List.length l = List.length first) (first :: rest) ->
  add_cartes args true = add_cartes args false.
Proof.
  intros F N A. apply same_dim_Forall in A. unfold add_cartes.
  rewrite (add_cartes_try_multi args first rest true F N),
    (add_cartes_try_multi args first rest false F N), A.
  reflexivity.
Qed.

Lemma add_cartes_fixdim_same_dim_witness :
  add_cartes [PyList [PyNum 1; PyNum 2]; PyTuple [PyNum 3; PyNum 4]] true =
  add_cartes [PyList [PyNum 1; PyNum 2]; PyTuple [PyNum 3; PyNum 4]] false.
Proof.
  apply (add_cartes_fixdim_same_dim
           [PyList [PyNum 1; PyNum 2]; PyTuple [PyNum 3; PyNum 4]]
           [1; 2] [[3; 4]]).
  - constructor; [split; [reflexivity|left; reflexivity]|].
    constructor; [split; [reflexivity|left; reflexivity]|constructor].
  - discriminate.
  - repeat constructor.
Defined.

(** X15: on a 3D first vector, adding a list of two numbers with [fixdim]
    set gives the same sum as adding what [two_to_three] makes of that list
    without [fixdim]. *)
Theorem add_cartes_two_to_three (a : pyobj) (ax ay az bx by' : R) :
  components a = Some [ax; ay; az] ->
  exists b3,
    two_to_three (PyList [PyNum bx; PyNum by']) = Ret b3 /\
    add_cartes [a; b3] false =
    add_cartes [a; PyList [PyNum bx; PyNum by']] true.
Proof.
  intros H. exists (PyList [PyNum bx; PyNum by'; PyNum 0]).
  split; [reflexivity|].
  by_shape H; unfold add_cartes; simpl; do 6 f_equal; ring.
Qed.

Lemma add_cartes_two_to_three_witness :
  exists b3,
    two_to_three (PyList [PyNum 4; PyNum 5]) = Ret b3 /\
    add_cartes [PyTuple [PyNum 1; PyNum 2; PyNum 3]; b3] false =
    add_cartes [PyTuple [PyNum 1; PyNum 2; PyNum 3];
                PyList [PyNum 4; PyNum 5]] true.
Proof.
  apply (add_cartes_two_to_three (PyTuple [PyNum 1; PyNum 2; PyNum 3])
           1 2 3 4 5).
  reflexivity.
Defined.

(** ** The two modes of [validate_vector] *)

(** X16: with [throwerr] set, [validate_vector] returns [True] on exactly
    the objects on which it returns [True] without it, and never returns
    [False]; in either mode it raises nothing but [TypeError]. *)
Theorem validate_vector_throw_mode (obj : pyobj) :
  (validate_vector obj true = Ret true <->
   validate_vector obj false = Ret true) /\
  validate_vector obj true <> Ret false /\
  raises_only [TypeError] (validate_vector obj true) /\
  raises_only [TypeError] (validate_vector obj false).
Proof.
  split; [apply validate_vector_modes|].
  split; [|split].
  - destruct (validate_vector_throw obj) as [T|T]; rewrite T; discriminate.
  - destruct (validate_vector_throw obj) as [T|T]; rewrite T; simpl; auto.
  - destruct (validate_vector_outcome obj) as [V|[V|V]]; rewrite V; simpl;
      auto.
Qed.

(** * Properties over Python's numbers

    The properties of the second embedding: they hold for every C
    library. *)

Module B64Facts.

Import B64.

(** ** Numbers *)

Lemma py_add_numbers (a b : pyobj) :
  is_number a = true -> is_number b = true ->
  (exists s, py_add a b = Ret s /\ is_number s = true) \/
  py_add a b = Raise OverflowError.
Proof.
  destruct a, b; try discriminate; intros _ _; simpl; eauto.
  - destruct (is_infinity (int_to_float z)); simpl; eauto.
  - destruct (is_infinity (int_to_float z)); simpl; eauto.
Qed.

(** ** The loop of [add_cartes] *)

Lemma is_vector_cases (a : pyobj) (l : list pyobj) :
  is_vector a l ->
  (exists x y, l = [x; y] /\ is_number x = true /\ is_number y = true /\
     (a = PyList [x; y] \/ a = PyTuple [x; y])) \/
  (exists x y z, l = [x; y; z] /\ is_number x = true /\
     is_number y = true /\ is_number z = true /\
     (a = PyList [x; y; z] \/ a = PyTuple [x; y; z])).
Proof.
  intros (K & N & [L|L]).
  - destruct l as [|x [|y [|z l]]]; try discriminate. simpl in N.
    apply andb_prop in N. destruct N as [Nx N].
    apply andb_prop in N. destruct N as [Ny _].
    left. exists x, y. auto.
  - destruct l as [|x [|y [|z [|c l]]]]; try discriminate. simpl in N.
    apply andb_prop in N. destruct N as [Nx N].
    apply andb_prop in N. destruct N as [Ny N].
    apply andb_prop in N. destruct N as [Nz _].
    right. exists x, y, z. auto 6.
Qed.

Lemma add_loop_step (base_dim : nat) (fixdim : bool) (v : pyobj)
  (rest result : list pyobj) :
  add_loop base_dim fixdim (v :: rest) result =
  (ok <- validate_vector v true ;;
   if ok then
     n <- py_len v ;;
     if negb (n =? base_dim)%nat && negb fixdim then Raise DimensionError
     else
       r0 <- iadd_item result 0 v ;;
       r1 <- iadd_item r0 1 v ;;
       n' <- py_len v ;;
       r2 <- (if (base_dim =? n')%nat && (n' =? 3)%nat
              then iadd_item r1 2 v else Ret r1) ;;
       add_loop base_dim fixdim rest r2
   else add_loop base_dim fixdim rest result).
Proof. reflexivity. Qed.

Lemma vsum_cons (i : nat) (acc : pyobj) (l : list pyobj)
  (vs : list (list pyobj)) :
  py_sum_from acc (map (fun l => nth i l (PyInt 0)) (l :: vs)) =
  (s <- py_add acc (nth i l (PyInt 0)) ;;
   py_sum_from s (map (fun l => nth i l (PyInt 0)) vs)).
Proof. reflexivity. Qed.

(** The loop on a 2D base when the sums return. *)
Lemma add_loop_2_returns (fixdim : bool) (args : list pyobj)
  (vs : list (list pyobj)) :
  Forall2 is_vector args vs ->
  forall a b a' b',
    is_number a = true -> is_number b = true ->
    py_sum_from a (map (fun l => nth 0 l (PyInt 0)) vs) = Ret a' ->
    py_sum_from b (map (fun l => nth 1 l (PyInt 0)) vs) = Ret b' ->
    add_loop 2 fixdim args [a; b] =
    if fixdim || same_dim 2 vs then Ret [a'; b']
    else Raise DimensionError.
Proof.
  induction 1 as [|v l args vs Hv _ IH]; intros a b a' b' Na Nb Sa Sb.
  - simpl in *. inversion Sa; inversion Sb; subst.
    now rewrite orb_true_r.
  - rewrite vsum_cons in Sa, Sb. rewrite add_loop_step.
    destruct (is_vector_cases v l Hv)
      as [(x & y & El & Nx & Ny & Ev)|(x & y & z & El & Nx & Ny & Nz & Ev)];
      subst l; cbn [nth] in Sa, Sb;
      destruct (py_add_numbers a x Na Nx) as [(s & Es & Ns)|Es];
      rewrite Es in Sa; try discriminate;
      destruct (py_add_numbers b y Nb Ny) as [(t & Et & Nt)|Et];
      rewrite Et in Sb; try discriminate;
      cbn [bind] in Sa, Sb;
      destruct Ev; subst v; destruct fixdim;
      cbn -[add_loop same_dim py_add]; rewrite ?Es;
      cbn -[add_loop same_dim py_add];
      rewrite ?Et; cbn -[add_loop same_dim py_add];
      try reflexivity;
      rewrite (IH s t a' b' Ns Nt Sa Sb); reflexivity.
Qed.

(** The loop on a 2D base when a sum raises: without a [DimensionError]
    in the way, the [OverflowError] of the addition comes out. *)
Lemma add_loop_2_raises (fixdim : bool) (args : list pyobj)
  (vs : list (list pyobj)) :
  Forall2 is_vector args vs ->
  fixdim || same_dim 2 vs = true ->
  forall a b,
    is_number a = true -> is_number b = true ->
    (exists e, py_sum_from a (map (fun l => nth 0 l (PyInt 0)) vs) = Raise e)
    \/
    (exists e, py_sum_from b (map (fun l => nth 1 l (PyInt 0)) vs) = Raise e)
    ->
    add_loop 2 fixdim args [a; b] = Raise OverflowError.
Proof.
  induction 1 as [|v l args vs Hv _ IH]; intros D a b Na Nb S.
  - destruct S as [[e S]|[e S]]; discriminate.
  - rewrite !vsum_cons in S. rewrite add_loop_step.
    assert (D' : fixdim || same_dim 2 vs = true).
    { destruct fixdim; [reflexivity|]. simpl in D |- *.
      apply andb_prop in D. apply D. }
    destruct (is_vector_cases v l Hv)
      as [(x & y & El & Nx & Ny & Ev)|(x & y & z & El & Nx & Ny & Nz & Ev)];
      subst l; cbn [nth] in S;
      (destruct fixdim; [|try discriminate D]);
      destruct (py_add_numbers a x Na Nx) as [(s & Es & Ns)|Es];
      destruct (py_add_numbers b y Nb Ny) as [(t & Et & Nt)|Et];
      rewrite ?Es, ?Et in S; cbn [bind] in S;
      destruct Ev; subst v;
      cbn -[add_loop same_dim py_add]; rewrite ?Es;
      cbn -[add_loop same_dim py_add]; rewrite ?Et;
      cbn -[add_loop same_dim py_add]; try reflexivity;
      apply (IH D' s t Ns Nt S).
Qed.

Lemma only_3d_cons_2 (x y : pyobj) (vs : list (list pyobj)) :
  only_3d ([x; y] :: vs) = only_3d vs.
Proof. reflexivity. Qed.

Lemma only_3d_cons_3 (x y z : pyobj) (vs : list (list pyobj)) :
  only_3d ([x; y; z] :: vs) = [x; y; z] :: only_3d vs.
Proof. reflexivity. Qed.

(** The loop on a 3D base when the sums return. *)
Lemma add_loop_3_returns (fixdim : bool) (args : list pyobj)
  (vs : list (list pyobj)) :
  Forall2 is_vector args vs ->
  forall a b c a' b' c',
    is_number a = true -> is_number b = true -> is_number c = true ->
    py_sum_from a (map (fun l => nth 0 l (PyInt 0)) vs) = Ret a' ->
    py_sum_from b (map (fun l => nth 1 l (PyInt 0)) vs) = Ret b' ->
    py_sum_from c (map (fun l => nth 2 l (PyInt 0)) (only_3d vs)) = Ret c' ->
    add_loop 3 fixdim args [a; b; c] =
    if fixdim || same_dim 3 vs then Ret [a'; b'; c']
    else Raise DimensionError.
Proof.
  induction 1 as [|v l args vs Hv _ IH];
    intros a b c a' b' c' Na Nb Nc Sa Sb Sc.
  - simpl in *. inversion Sa; inversion Sb; inversion Sc; subst.
    now rewrite orb_true_r.
  - rewrite vsum_cons in Sa, Sb. rewrite add_loop_step.
    destruct (is_vector_cases v l Hv)
      as [(x & y & El & Nx & Ny & Ev)|(x & y & z & El & Nx & Ny & Nz & Ev)];
      subst l; cbn [nth] in Sa, Sb;
      destruct (py_add_numbers a x Na Nx) as [(s & Es & Ns)|Es];
      rewrite Es in Sa; try discriminate;
      destruct (py_add_numbers b y Nb Ny) as [(t & Et & Nt)|Et];
      rewrite Et in Sb; try discriminate;
      cbn [bind] in Sa, Sb.
    + rewrite only_3d_cons_2 in Sc.
      destruct Ev; subst v; destruct fixdim;
        cbn -[add_loop same_dim py_add only_3d]; rewrite ?Es;
        cbn -[add_loop same_dim py_add only_3d]; rewrite ?Et;
        cbn -[add_loop same_dim py_add only_3d]; try reflexivity;
        rewrite (IH s t c a' b' c' Ns Nt Nc Sa Sb Sc); reflexivity.
    + rewrite only_3d_cons_3, vsum_cons in Sc. cbn [nth] in Sc.
      destruct (py_add_numbers c z Nc Nz) as [(u & Eu & Nu)|Eu];
        rewrite Eu in Sc; try discriminate. cbn [bind] in Sc.
      destruct Ev; subst v; destruct fixdim;
        cbn -[add_loop same_dim py_add only_3d]; rewrite ?Es;
        cbn -[add_loop same_dim py_add only_3d]; rewrite ?Et;
        cbn -[add_loop same_dim py_add only_3d]; rewrite ?Eu;
        cbn -[add_loop same_dim py_add only_3d];
        rewrite (IH s t u a' b' c' Ns Nt Nu Sa Sb Sc); reflexivity.
Qed.

(** The loop on a 3D base when a sum raises. *)
Lemma add_loop_3_raises (fixdim : bool) (args : list pyobj)
  (vs : list (list pyobj)) :
  Forall2 is_vector args vs ->
  fixdim || same_dim 3 vs = true ->
  forall a b c,
    is_number a = true -> is_number b = true -> is_number c = true ->
    (exists e, py_sum_from a (map (fun l => nth 0 l (PyInt 0)) vs) = Raise e)
    \/
    (exists e, py_sum_from b (map (fun l => nth 1 l (PyInt 0)) vs) = Raise e)
    \/
    (exists e, py_sum_from c (map (fun l => nth 2 l (PyInt 0)) (only_3d vs))
               = Raise e) ->
    add_loop 3 fixdim args [a; b; c] = Raise OverflowError.
Proof.
  induction 1 as [|v l args vs Hv _ IH]; intros D a b c Na Nb Nc S.
  - destruct S as [[e S]|[[e S]|[e S]]]; discriminate.
  - rewrite !vsum_cons in S. rewrite add_loop_step.
    assert (D' : fixdim || same_dim 3 vs = true).
    { destruct fixdim; [reflexivity|]. simpl in D |- *.
      apply andb_prop in D. apply D. }
    destruct (is_vector_cases v l Hv)
      as [(x & y & El & Nx & Ny & Ev)|(x & y & z & El & Nx & Ny & Nz & Ev)];
      subst l; cbn [nth] in S;
      (destruct fixdim; [|try discriminate D]);
      destruct (py_add_numbers a x Na Nx) as [(s & Es & Ns)|Es];
      destruct (py_add_numbers b y Nb Ny) as [(t & Et & Nt)|Et];
      rewrite ?Es, ?Et in S; cbn [bind] in S.
    all: try rewrite only_3d_cons_2 in S.
    all: try (rewrite only_3d_cons_3, vsum_cons in S; cbn [nth] in S;
              destruct (py_add_numbers c z Nc Nz) as [(u & Eu & Nu)|Eu];
              rewrite ?Eu in S; cbn [bind] in S).
    all: destruct Ev; subst v;
      cbn -[add_loop same_dim py_add only_3d]; rewrite ?Es;
      cbn -[add_loop same_dim py_add only_3d]; rewrite ?Et;
      cbn -[add_loop same_dim py_add only_3d]; rewrite ?Eu;
      cbn -[add_loop same_dim py_add only_3d]; try reflexivity.
    all: try (apply (IH D' s t c Ns Nt Nc S)).
    all: apply (IH D' s t u Ns Nt Nu S).
Qed.

Lemma same_dim_of_Forall (base : nat) (vs : list (list pyobj)) :
  Forall (fun l => List.length l = base) vs -> same_dim base vs = true.
Proof.
  induction 1 as [|l vs E _ IH]; simpl; [reflexivity|].
  rewrite IH, andb_true_r. now apply Nat.eqb_eq.
Qed.

Lemma same_dim_of_Exists (base : nat) (vs : list (list pyobj)) :
  Exists (fun l => List.length l <> base) vs -> same_dim base vs = false.
Proof.
  induction 1 as [l vs E|l vs _ IH]; simpl.
  - apply Nat.eqb_neq in E. now rewrite E.
  - rewrite IH. apply andb_false_r.
Qed.

Lemma only_3d_of_same_dim (vs : list (list pyobj)) :
  same_dim 3 vs = true -> only_3d vs = vs.
Proof.
  induction vs as [|l vs IH]; simpl; [reflexivity|].
  intros H. apply andb_prop in H. destruct H as [H1 H2].
  rewrite H1. now rewrite IH.
Qed.

(** The body of the [try] for two or more vectors: the loop over all of
    them, from zeros of the length of the first. *)
Lemma add_cartes_try_vectors (args : list pyobj) (first : list pyobj)
  (rest : list (list pyobj)) (fixdim : bool) :
  Forall2 is_vector args (first :: rest) -> rest <> [] ->
  add_cartes_try args fixdim =
  (r <- add_loop (List.length first) fixdim args
          (if (List.length first =? 2)%nat then [PyInt 0; PyInt 0]
           else [PyInt 0; PyInt 0; PyInt 0]) ;;
   Ret (PyList r)).
Proof.
  intros F N. unfold add_cartes_try.
  inversion F as [|a0 l0 args' vs' Hv Hrest]; subst.
  destruct rest as [|second rest]; [contradiction|].
  inversion Hrest as [|a1 l1 args'' vs'' Hv1 Hrest']; subst.
  cbn [List.length Nat.eqb item_at nth_error bind].
  destruct (is_vector_cases a0 first Hv)
    as [(x & y & El & _ & _ & [Ev|Ev])|(x & y & z & El & _ & _ & _ & [Ev|Ev])];
    subst a0 first; reflexivity.
Qed.

Lemma total_cases (base : nat) (vs : list (list pyobj)) (t : list pyobj) :
  (base = 2 \/ base = 3)%nat -> total base vs = Ret t ->
  exists x y,
    vsum 0 vs = Ret x /\ vsum 1 vs = Ret y /\
    ((base = 2%nat /\ t = [x; y]) \/
     (base = 3%nat /\ exists z, vsum 2 (only_3d vs) = Ret z /\ t = [x; y; z])).
Proof.
  intros B T. unfold total in T.
  destruct (vsum 0 vs) as [x|] eqn:X; try discriminate.
  destruct (vsum 1 vs) as [y|] eqn:Y; try discriminate.
  exists x, y. split; [reflexivity|]. split; [reflexivity|].
  destruct B as [B|B]; subst base; simpl in T.
  - inversion T. now left.
  - destruct (vsum 2 (only_3d vs)) as [z|] eqn:Z; try discriminate.
    inversion T. right. split; [reflexivity|]. now exists z.
Qed.

Lemma total_raises (vs : list (list pyobj)) (e : exn) :
  (total 2 vs = Raise e ->
   (exists e', vsum 0 vs = Raise e') \/ (exists e', vsum 1 vs = Raise e')) /\
  (total 3 vs = Raise e ->
   (exists e', vsum 0 vs = Raise e') \/ (exists e', vsum 1 vs = Raise e') \/
   (exists e', vsum 2 (only_3d vs) = Raise e')).
Proof.
  unfold total. split; intros T.
  - destruct (vsum 0 vs); [|eauto]. destruct (vsum 1 vs); [|eauto].
    discriminate.
  - destruct (vsum 0 vs); [|eauto]. destruct (vsum 1 vs); [|eauto].
    destruct (vsum 2 (only_3d vs)); [|eauto]. discriminate.
Qed.

Lemma add_cartes_returns_total (args : list pyobj) (first : list pyobj)
  (rest : list (list pyobj)) (fixdim : bool) (t : list pyobj) :
  Forall2 is_vector args (first :: rest) -> rest <> [] ->
  total (List.length first) (first :: rest) = Ret t ->
  add_cartes args fixdim =
  if fixdim || same_dim (List.length first) (first :: rest)
  then Ret (PyList t) else Ret (PyList []).
Proof.
  intros F N T. unfold add_cartes.
  rewrite (add_cartes_try_vectors args first rest fixdim F N).
  assert (B : (List.length first = 2 \/ List.length first = 3)%nat).
  { inversion F as [|a0 l0 args' vs' (_ & _ & Hl) _]; subst. exact Hl. }
  destruct (total_cases _ _ _ B T) as (x & y & X & Y & C).
  destruct C as [[E Et]|[E (z & Z & Et)]]; rewrite E in *; subst t;
    cbn [Nat.eqb].
  - rewrite (add_loop_2_returns fixdim args _ F (PyInt 0) (PyInt 0) x y
               eq_refl eq_refl X Y).
    destruct (fixdim || same_dim 2 (first :: rest)); reflexivity.
  - rewrite (add_loop_3_returns fixdim args _ F (PyInt 0) (PyInt 0) (PyInt 0)
               x y z eq_refl eq_refl eq_refl X Y Z).
    destruct (fixdim || same_dim 3 (first :: rest)); reflexivity.
Qed.

(** ** [add_cartes] on vectors of numbers *)

(** C8, as the code has it: in a call with two or more lists or tuples of
    numbers the length of the first is the base dimension, and the sums are
    accumulated from the [int] zero in the order of the arguments, in
    Python's arithmetic.  When these sums return: without [fixdim] the
    result is the componentwise sum if every vector has the base dimension
    and the empty list if one has not; with [fixdim] the result has the base
    dimension, [x] and [y] are summed over every vector, and on a 3D base
    [z] is summed over the vectors of length 3.  When a sum raises (an
    [int] beyond the range of [float] added to a [float]), the call with
    [fixdim], and the call without it on vectors of the base dimension,
    raise [OverflowError]. *)
Theorem add_cartes_multi (args : list pyobj) (first : list pyobj)
  (rest : list (list pyobj)) :
  Forall2 is_vector args (first :: rest) -> rest <> [] ->
  let base := List.length first in
  let vs := first :: rest in
  (forall t, componentwise_sum base vs = Ret t ->
     Forall (fun l => List.length l = base) vs ->
     add_cartes args false = Ret (PyList t)) /\
  (forall t, total base vs = Ret t ->
     Exists (fun l => List.length l <> base) vs ->
     add_cartes args false = Ret (PyList [])) /\
  (forall t, total base vs = Ret t ->
     add_cartes args true = Ret (PyList t) /\ List.length t = base) /\
  (forall e, total base vs = Raise e ->
     add_cartes args true = Raise OverflowError) /\
  (forall e, componentwise_sum base vs = Raise e ->
     Forall (fun l => List.length l = base) vs ->
     add_cartes args false = Raise OverflowError).
Proof.
  intros F N base vs.
  assert (B : (base = 2 \/ base = 3)%nat).
  { inversion F as [|a0 l0 args' vs' (_ & _ & Hl) _]; subst. exact Hl. }
  assert (R : forall fixdim e,
             fixdim || same_dim base vs = true ->
             total base vs = Raise e ->
             add_cartes args fixdim = Raise OverflowError).
  { intros fixdim e D T. unfold add_cartes.
    rewrite (add_cartes_try_vectors args first rest fixdim F N). fold base.
    destruct B as [E|E]; rewrite E in *; cbn [Nat.eqb].
    - rewrite (add_loop_2_raises fixdim args vs F D (PyInt 0) (PyInt 0)
                 eq_refl eq_refl (proj1 (total_raises vs e) T)).
      reflexivity.
    - rewrite (add_loop_3_raises fixdim args vs F D (PyInt 0) (PyInt 0)
                 (PyInt 0) eq_refl eq_refl eq_refl
                 (proj2 (total_raises vs e) T)).
      reflexivity. }
  assert (S : same_dim base vs = true ->
              total base vs = componentwise_sum base vs).
  { intros A. unfold total, componentwise_sum.
    destruct B as [E|E]; rewrite E in *; [reflexivity|].
    now rewrite (only_3d_of_same_dim vs A). }
  split; [|split; [|split; [|split]]].
  - intros t C A. apply same_dim_of_Forall in A.
    assert (T : total base vs = Ret t).
    { now rewrite (S A). }
    rewrite (add_cartes_returns_total args first rest false t F N T).
    fold base vs. now rewrite A.
  - intros t T E. apply same_dim_of_Exists in E.
    rewrite (add_cartes_returns_total args first rest false t F N T).
    fold base vs. now rewrite E.
  - intros t T. split.
    + now rewrite (add_cartes_returns_total args first rest true t F N T).
    + destruct (total_cases base vs t B T) as (x & y & _ & _ & C).
      destruct C as [[E Et]|[E (z & _ & Et)]]; subst t; now rewrite E.
  - intros e T. now apply (R true e).
  - intros e C A. apply same_dim_of_Forall in A.
    apply (R false e); [exact A|]. now rewrite (S A).
Qed.

Lemma add_cartes_multi_witness :
  add_cartes [PyTuple [PyInt 1; PyInt 2];
              PyTuple [PyFloat 3; PyInt 4; PyInt 5]] true =
    Ret (PyList [PyFloat 4; PyInt 6]) /\
  add_cartes [PyTuple [PyInt 1; PyInt 2];
              PyTuple [PyFloat 3; PyInt 4; PyInt 5]] false = Ret (PyList []).
Proof.
  assert (F : Forall2 is_vector
                [PyTuple [PyInt 1; PyInt 2];
                 PyTuple [PyFloat 3; PyInt 4; PyInt 5]]
                [[PyInt 1; PyInt 2]; [PyFloat 3; PyInt 4; PyInt 5]]).
  { constructor; [split; [now right|split; [reflexivity|now left]]|].
    constructor; [split; [now right|split; [reflexivity|now right]]|].
    constructor. }
  assert (N : [[PyFloat 3; PyInt 4; PyInt 5]] <> (@nil (list pyobj)))
    by discriminate.
  split.
  - apply (proj1 (proj2 (proj2 (add_cartes_multi _ _ _ F N)))
             [PyFloat 4; PyInt 6]). reflexivity.
  - apply (proj1 (proj2 (add_cartes_multi _ _ _ F N)) [PyFloat 4; PyInt 6]).
    + reflexivity.
    + apply Exists_cons_tl, Exists_cons_hd. simpl. lia.
Defined.

(** C8 refuted: the sum of [[10**400, 0]] and [[1.0, 0]], two valid vectors
    of the same dimension, is no result: the addition of the [int], too
    large for a [float], to [1.0] raises [OverflowError], which the
    [except] clause does not catch. *)
Lemma add_cartes_overflow_escapes :
  Forall2 is_vector
    [PyList [PyInt (10 ^ 400); PyInt 0]; PyList [PyFloat 1; PyInt 0]]
    [[PyInt (10 ^ 400); PyInt 0]; [PyFloat 1; PyInt 0]] /\
  add_cartes [PyList [PyInt (10 ^ 400); PyInt 0];
              PyList [PyFloat 1; PyInt 0]] false = Raise OverflowError.
Proof.
  split.
  - constructor; [split; [now left|split; [reflexivity|now left]]|].
    constructor; [split; [now left|split; [reflexivity|now left]]|].
    constructor.
  - vm_compute. reflexivity.
Qed.

(** ** [rec] and [pol] on vectors of numbers *)

Lemma math_1_finite (func : float -> float) (x : float) :
  is_finite (func x) = true -> math_1 func x = Ret (func x).
Proof.
  unfold math_1, is_finite. intros H.
  destruct (is_nan (func x)); [discriminate|].
  destruct (is_infinity (func x)); [discriminate|]. reflexivity.
Qed.

Lemma py_mul_float_as_double (a : pyobj) (x f : float) :
  as_double a = Ret x -> py_mul_float a f = Ret (x * f)%float.
Proof.
  intros H. destruct a; try discriminate; unfold py_mul_float; now rewrite H.
Qed.

Lemma math_radians_as_double (a : pyobj) (x : float) :
  as_double a = Ret x -> math_radians a = Ret (x * degToRad)%float.
Proof. intros H. unfold math_radians. now rewrite H. Qed.

(** The 3D branch of [rec] on a list or tuple of three items. *)
Lemma rec_3d_steps (m : libm) (v r a b : pyobj) (physics : bool) :
  v = PyList [r; a; b] \/ v = PyTuple [r; a; b] ->
  rec m v physics =
  (let inclin := if physics then a else b in
   let azimuth := if physics then b else a in
   i1 <- math_radians inclin ;;
   s1 <- math_sin m i1 ;;
   p1 <- py_mul_float r s1 ;;
   a1 <- math_radians azimuth ;;
   c1 <- math_cos m a1 ;;
   i2 <- math_radians inclin ;;
   s2 <- math_sin m i2 ;;
   p2 <- py_mul_float r s2 ;;
   a2 <- math_radians azimuth ;;
   s3 <- math_sin m a2 ;;
   i3 <- math_radians inclin ;;
   c3 <- math_cos m i3 ;;
   z <- py_mul_float r c3 ;;
   Ret (PyList [PyFloat (p1 * c1); PyFloat (p2 * s3); PyFloat z])).
Proof. intros [E|E]; subst v; destruct physics; reflexivity. Qed.

(** C6, as the code has it: for a list or tuple [(r, a, b)] of numbers
    that convert to [float], [rec] takes [a] as azimuth and [b] as
    inclination by default, and [a] as inclination and [b] as azimuth when
    [physics] is set; each angle is multiplied by [pi / 180], and where the
    sines and cosines the C library returns for them are finite the result
    is [r * sin(inclination) * cos(azimuth)],
    [r * sin(inclination) * sin(azimuth)] and [r * cos(inclination)], the
    products taken in binary64 from left to right. *)
Theorem rec_3d_convention (m : libm) (v r a b : pyobj) (physics : bool)
  (fr fi fa : float) :
  v = PyList [r; a; b] \/ v = PyTuple [r; a; b] ->
  let azimuth := if physics then b else a in
  let inclination := if physics then a else b in
  as_double r = Ret fr ->
  as_double inclination = Ret fi ->
  as_double azimuth = Ret fa ->
  let ti := (fi * degToRad)%float in
  let ta := (fa * degToRad)%float in
  is_finite (libm_sin m ti) = true -> is_finite (libm_cos m ti) = true ->
  is_finite (libm_sin m ta) = true -> is_finite (libm_cos m ta) = true ->
  rec m v physics =
  Ret (PyList [PyFloat (fr * libm_sin m ti * libm_cos m ta);
               PyFloat (fr * libm_sin m ti * libm_sin m ta);
               PyFloat (fr * libm_cos m ti)]).
Proof.
  intros K azimuth inclination Hr Hi Ha ti ta Si Ci Sa Ca.
  rewrite (rec_3d_steps m v r a b physics K). cbv zeta.
  fold azimuth inclination. unfold math_sin, math_cos.
  rewrite !(math_radians_as_double inclination fi Hi),
    !(math_radians_as_double azimuth fa Ha).
  fold ti ta. cbn [bind].
  rewrite (math_1_finite _ _ Si). cbn [bind].
  rewrite (py_mul_float_as_double r fr _ Hr). cbn [bind].
  rewrite (math_1_finite _ _ Ca). cbn [bind].
  rewrite (math_1_finite _ _ Sa). cbn [bind].
  rewrite (math_1_finite _ _ Ci). cbn [bind].
  rewrite (py_mul_float_as_double r fr _ Hr). reflexivity.
Qed.

Lemma rec_3d_convention_witness :
  rec first_order_libm (PyList [PyFloat 2; PyInt 0; PyFloat 0]) true =
  Ret (PyList [PyFloat (2 * (0 * degToRad) * 1);
               PyFloat (2 * (0 * degToRad) * (0 * degToRad));
               PyFloat (2 * 1)]).
Proof.
  apply (rec_3d_convention first_order_libm
           (PyList [PyFloat 2; PyInt 0; PyFloat 0])
           (PyFloat 2) (PyInt 0) (PyFloat 0) true 2 0 0);
    solve [now left | reflexivity].
Defined.

(** C6 refuted: [[1, 0, 10**400]] passes validation, and by default [rec]
    raises [OverflowError] for it whatever the C library is: the conversion
    of the inclination to radians cannot turn the [int] into a [float]. *)
Lemma rec_huge_int_raises :
  validate_vector (PyList [PyInt 1; PyInt 0; PyInt (10 ^ 400)]) false =
    Ret true /\
  (forall m,
     rec m (PyList [PyInt 1; PyInt 0; PyInt (10 ^ 400)]) false =
       Raise OverflowError).
Proof.
  split; [reflexivity|]. intros m.
  rewrite (rec_3d_steps m _ (PyInt 1) (PyInt 0) (PyInt (10 ^ 400)) false
             (or_introl eq_refl)).
  cbv zeta.
  assert (R1 : math_radians (PyInt (10 ^ 400)) = Raise OverflowError)
    by (vm_compute; reflexivity).
  rewrite R1. reflexivity.
Qed.

(** The 2D branch of [pol] on a list or tuple of two items. *)
Lemma pol_2d_steps (m : libm) (v x y : pyobj) (physics : bool) :
  v = PyList [x; y] \/ v = PyTuple [x; y] ->
  pol m v physics =
  (ang <- (if py_eq0 x then
             b <- py_gt0 y ;; Ret (PyInt (if b then 90 else -90))
           else
             q <- py_truediv y x ;;
             t <- math_atan m q ;;
             Ret (PyFloat (math_degrees t))) ;;
   s0 <- py_pow2 m x ;;
   s1 <- py_pow2 m y ;;
   s <- py_add s0 s1 ;;
   r <- math_sqrt s ;;
   Ret (PyList [PyFloat r; ang])).
Proof.
  intros [E|E]; subst v; unfold pol, pol_angle;
    cbn -[py_pow2 py_add math_sqrt py_truediv math_atan py_gt0 py_eq0];
    destruct (py_eq0 x); reflexivity.
Qed.

(** C7, as the code has it: for a list or tuple [(x, y)] of numbers on
    which [sqrt(x ** 2 + y ** 2)] returns in Python's arithmetic, [pol]
    returns that radius with the angle [90] when [x == 0] and [y > 0], with
    [-90] when [x == 0] and not [y > 0], and otherwise, where [y / x]
    returns and the arctangent the C library gives for it is finite, with
    [atan(y / x)] multiplied by [180 / pi]. *)
Theorem pol_2d_cases (m : libm) (v x y : pyobj) (physics : bool)
  (sx sy s : pyobj) (r : float) :
  v = PyList [x; y] \/ v = PyTuple [x; y] ->
  py_pow2 m x = Ret sx -> py_pow2 m y = Ret sy ->
  py_add sx sy = Ret s -> math_sqrt s = Ret r ->
  (py_eq0 x = true ->
   (py_gt0 y = Ret true ->
    pol m v physics = Ret (PyList [PyFloat r; PyInt 90])) /\
   (py_gt0 y = Ret false ->
    pol m v physics = Ret (PyList [PyFloat r; PyInt (-90)]))) /\
  (py_eq0 x = false ->
   forall q, py_truediv y x = Ret q ->
             is_finite (libm_atan m q) = true ->
             pol m v physics =
             Ret (PyList [PyFloat r; PyFloat (libm_atan m q * radToDeg)])).
Proof.
  intros K Hx Hy Hs Hr. rewrite (pol_2d_steps m v x y physics K).
  split.
  - intros E. rewrite E. split; intros G; rewrite G; cbn [bind];
      rewrite Hx; cbn [bind]; rewrite Hy; cbn [bind];
      rewrite Hs; cbn [bind]; rewrite Hr; reflexivity.
  - intros E q Hq Hf. rewrite E, Hq. cbn [bind]. unfold math_atan.
    rewrite (math_1_finite _ _ Hf). cbn [bind].
    rewrite Hx; cbn [bind]; rewrite Hy; cbn [bind];
      rewrite Hs; cbn [bind]; rewrite Hr; reflexivity.
Qed.

Lemma pol_2d_cases_witness :
  pol first_order_libm (PyTuple [PyInt 0; PyInt 5]) false =
    Ret (PyList [PyFloat 5; PyInt 90]) /\
  pol first_order_libm (PyTuple [PyFloat 0; PyFloat (-5)]) false =
    Ret (PyList [PyFloat (PrimFloat.sqrt (0 + 5 * 5)); PyInt (-90)]).
Proof.
  split.
  - apply (proj1 (proj1 (pol_2d_cases first_order_libm
                    (PyTuple [PyInt 0; PyInt 5]) (PyInt 0) (PyInt 5) false
                    (PyInt 0) (PyInt 25) (PyInt 25) 5
                    (or_intror eq_refl) eq_refl eq_refl eq_refl eq_refl)
                  eq_refl) eq_refl).
  - apply (proj2 (proj1 (pol_2d_cases first_order_libm
                    (PyTuple [PyFloat 0; PyFloat (-5)])
                    (PyFloat 0) (PyFloat (-5)) false
                    (PyFloat 0) (PyFloat (5 * 5)) (PyFloat (0 + 5 * 5))
                    (PrimFloat.sqrt (0 + 5 * 5))
                    (or_intror eq_refl) eq_refl eq_refl eq_refl eq_refl)
                  eq_refl) eq_refl).
Defined.

(** C7 refuted: [[0, 10**400]] passes validation, and [pol] raises
    [OverflowError] for it whatever the C library is: [x == 0] and [y > 0],
    and the square root cannot turn the [int] [y ** 2] into a [float]. *)
Lemma pol_huge_int_raises :
  validate_vector (PyList [PyInt 0; PyInt (10 ^ 400)]) false = Ret true /\
  (forall m physics,
     pol m (PyList [PyInt 0; PyInt (10 ^ 400)]) physics =
       Raise OverflowError).
Proof.
  split; [reflexivity|]. intros m physics.
  rewrite (pol_2d_steps m _ (PyInt 0) (PyInt (10 ^ 400)) physics
             (or_introl eq_refl)).
  vm_compute. reflexivity.
Qed.

(** ** Validation and the conversions *)




End B64Facts.
